(** * bqplot.map: the [Map] widget

    A shallow embedding of [src/bqplot/map.py]: the trait declarations of
    class [Map], its constructor, the two registration methods
    [on_ctrl_click] and [on_hover], and the custom-message handler
    [_handle_button_msg].

    The class is written against IPython's widget framework (traitlets,
    [DOMWidget], [CallbackDispatcher]), which is imported and not part of the
    module.  Every definition that stands for framework behaviour says so in
    its doc comment; everything else follows the module line by line. *)

From Stdlib Require Import QArith.
From stdpp Require Import gmap strings list fin_maps.

(** ** Python values *)

(** The values that reach the widget: JSON-like message contents, trait
    values, and references to framework objects.  A float is written as the
    decimal rational of its literal; no arithmetic is ever done on one.  An
    object reference carries the names of the classes it is an instance of
    (its class and the bases) and an identity. *)
Set Warnings "-register-all".
Inductive pyval : Type :=
  | VNone
  | VBool (b : bool)
  | VInt (n : Z)
  | VFloat (x : Q)
  | VStr (s : string)
  | VList (xs : list pyval)
  | VTuple (xs : list pyval)
  | VDict (d : gmap string pyval)
  | VObject (classes : list string) (oid : nat).

(** Exceptions.  [InvalidFieldKind] is the spec's name for the error a trait
    raises on a value of the wrong kind. *)
Inductive exn : Type :=
  | AttributeError
  | InvalidFieldKind.

Inductive result (A : Type) : Type :=
  | Ok (a : A)
  | Raise (e : exn).
Arguments Ok {A} a.
Arguments Raise {A} e.

(** [content.get(key, dflt)]: a dict method, so any other value has no
    attribute [get]. *)
Definition py_get (content : pyval) (key : string) (dflt : pyval) : result pyval :=
  match content with
  | VDict d => Ok (default dflt (d !! key))
  | _ => Raise AttributeError
  end.

(** [v == 'literal']: a string equals a string with the same characters, and
    no other JSON value equals a string. *)
Definition py_eq_str (v : pyval) (s : string) : bool :=
  match v with
  | VStr s' => bool_decide (s' = s)
  | _ => false
  end.

Definition is_none (v : pyval) : bool :=
  match v with VNone => true | _ => false end.

(** ** Callback handles and the dispatcher *)

(** A callback is host code; the widget only stores the handle, compares it
    for removal and calls it.  Its body is outside this module, so a handle
    is an identity and a call is an observable event (see [Call]). *)
Inductive Callback : Type := Fn (id : nat).

#[global] Instance Callback_eq_dec : EqDecision Callback.
Proof. solve_decision. Defined.

(** [CallbackDispatcher]: the ordered list of registered handles. *)
Record CallbackDispatcher : Type := mkDispatcher { callbacks : list Callback }.

(** Removal of the first element equal to [c]; the list is returned as it is
    when [c] does not occur. *)
Fixpoint remove_first (c : Callback) (l : list Callback) : list Callback :=
  match l with
  | [] => []
  | x :: l' => if decide (x = c) then l' else x :: remove_first c l'
  end.

(** Modelled from the spec: [CallbackDispatcher.register_callback] belongs to
    the widget framework, which the module imports.  With [remove] false the
    callback is appended (duplicates allowed, no uniqueness check); with
    [remove] true the first occurrence equal to the callback is removed, and
    nothing happens (no error) when there is none. *)
Definition register_callback (d : CallbackDispatcher) (callback : Callback)
    (remove : bool) : CallbackDispatcher :=
  if remove then mkDispatcher (remove_first callback (callbacks d))
  else mkDispatcher (callbacks d ++ [callback]).

(** ** Trait declarations *)

Inductive TraitKind : Type :=
  | Dict
  | Float
  | Bool
  | Color
  | Instance (klass : string)
  | List
  | Unicode
  | Tuple (elems : list TraitKind).
Set Warnings "register-all".

(** One class-level declaration [name = Kind(default, allow_none=.., sync=..)].
    [default_value] and [allow_none] are [None] where the declaration does not
    pass them. *)
Record TraitType : Type := mkTrait {
  kind : TraitKind;
  default_value : option pyval;
  allow_none : option bool;
  sync : bool
}.

Definition dict_of (l : list (string * pyval)) : pyval :=
  VDict (list_to_map l).

(** The trait declarations of class [Map], in the order of the source. *)
Definition Map_traits : list (string * TraitType) :=
  [ ("fig_margin",
     mkTrait Dict (Some (dict_of [("top", VInt 0); ("bottom", VInt 20);
                                  ("left", VInt 0); ("right", VInt 0)]))
             None true);
    ("min_width", mkTrait Float (Some (VFloat 800.0)) None true);
    ("min_height", mkTrait Float (Some (VFloat 600.0)) None true);
    ("enable_hover", mkTrait Bool (Some (VBool true)) None true);
    ("hovered_styles",
     mkTrait Dict (Some (dict_of [("hovered_fill", VStr "Orange");
                                  ("hovered_stroke", VNone);
                                  ("hovered_stroke_width", VFloat 5.0)]))
             (Some true) true);
    ("stroke_color", mkTrait Color None (Some true) true);
    ("default_color", mkTrait Color None (Some true) true);
    ("color", mkTrait Dict None None true);
    ("color_scale", mkTrait (Instance "ColorScale") None None true);
    ("enable_select", mkTrait Bool (Some (VBool true)) None true);
    ("selected", mkTrait List (Some (VList [])) None true);
    ("selected_styles",
     mkTrait Dict (Some (dict_of [("selected_fill", VStr "Red");
                                  ("selected_stroke", VNone);
                                  ("selected_stroke_width", VFloat 5.0)]))
             (Some true) true);
    ("axis", mkTrait (Instance "Axis") None None true);
    ("tooltip_color", mkTrait Color (Some (VStr "White")) None true);
    ("display_tooltip", mkTrait Bool (Some (VBool true)) None true);
    ("text_data", mkTrait Dict None None true);
    ("text_color", mkTrait Color (Some (VStr "Black")) None true);
    ("tooltip_format", mkTrait Unicode (Some (VStr ".2f")) None true);
    ("tooltip_widget", mkTrait (Instance "DOMWidget") None None true);
    ("map_data",
     mkTrait (Tuple [Unicode; Unicode])
             (Some (VTuple [VStr "worldmap";
                            VStr "nbextensions/bqplot/WorldMapData"]))
             None true);
    ("_view_name", mkTrait Unicode (Some (VStr "Map")) None true);
    ("_view_module",
     mkTrait Unicode (Some (VStr "nbextensions/bqplot/Map")) None true) ].

(** The twenty configuration fields: every declaration but the two private
    view selectors [_view_name] and [_view_module]. *)
Definition config_fields : list string :=
  [ "fig_margin"; "min_width"; "min_height"; "enable_hover"; "hovered_styles";
    "stroke_color"; "default_color"; "color"; "color_scale"; "enable_select";
    "selected"; "selected_styles"; "axis"; "tooltip_color"; "display_tooltip";
    "text_data"; "text_color"; "tooltip_format"; "tooltip_widget"; "map_data" ].

Fixpoint assoc {A : Type} (name : string) (l : list (string * A)) : option A :=
  match l with
  | [] => None
  | (n, a) :: l' => if decide (n = name) then Some a else assoc name l'
  end.

Definition trait_of (name : string) : option TraitType := assoc name Map_traits.

(** Modelled from the spec: the trait constructors ([Dict], [Float], [Color],
    [Instance], ...) are the framework's.  This is the default a constructor
    supplies when the declaration passes none: the spec's field table gives
    the empty mapping for a [Dict] and null for a [Color] and for an
    [Instance]; the remaining kinds always receive an explicit default in
    this class and are given their empty value. *)
Definition implicit_default (k : TraitKind) : pyval :=
  match k with
  | Dict => VDict ∅
  | Float => VFloat 0.0
  | Bool => VBool false
  | Color => VNone
  | Instance _ => VNone
  | List => VList []
  | Unicode => VStr EmptyString
  | Tuple _ => VTuple []
  end.

Definition default_of (t : TraitType) : pyval :=
  match default_value t with
  | Some v => v
  | None => implicit_default (kind t)
  end.

(** Modelled from the spec: whether a trait accepts null when the declaration
    does not pass [allow_none].  The spec lists the three [Instance] fields
    as nullable references; every other kind refuses null unless the
    declaration says [allow_none=True]. *)
Definition implicit_allow_none (k : TraitKind) : bool :=
  match k with
  | Instance _ => true
  | _ => false
  end.

Definition nullable (t : TraitType) : bool :=
  match allow_none t with
  | Some b => b
  | None => implicit_allow_none (kind t)
  end.

(** Modelled from the spec: agreement of a value's runtime type with a
    declared kind, the framework's per-kind validation.  A number is an int
    or a float, a color is carried as a string, a reference is an instance of
    the named class, and a tuple agrees element by element.  Nothing else
    about the value is inspected (no range or content check). *)
Fixpoint has_kind (k : TraitKind) (v : pyval) : bool :=
  match k, v with
  | Dict, VDict _ => true
  | Float, (VInt _ | VFloat _) => true
  | Bool, VBool _ => true
  | Color, VStr _ => true
  | Instance klass, VObject classes _ => bool_decide (klass ∈ classes)
  | List, VList _ => true
  | Unicode, VStr _ => true
  | Tuple ks, VTuple vs =>
      (fix all2 (ks : list TraitKind) (vs : list pyval) : bool :=
         match ks, vs with
         | [], [] => true
         | k' :: ks', v' :: vs' => has_kind k' v' && all2 ks' vs'
         | _, _ => false
         end) ks vs
  | _, _ => false
  end.

Definition accepts (t : TraitType) (v : pyval) : bool :=
  has_kind (kind t) v || (is_none v && nullable t).

(** ** The widget *)

(** The receivers of custom messages that [on_msg] can be given inside this
    module: the bound method [self._handle_button_msg]. *)
Inductive MsgHandler : Type := Bound_handle_button_msg.

(** The instance state of a [Map]: the trait values and the message
    receivers kept by the base class, and the two dispatchers the constructor
    creates. *)
Record Map : Type := mkMap {
  _trait_values : gmap string pyval;
  _msg_callbacks : list MsgHandler;
  _ctrl_click_handlers : CallbackDispatcher;
  _hover_handlers : CallbackDispatcher
}.

Definition set_trait_values (tv : gmap string pyval) (w : Map) : Map :=
  mkMap tv (_msg_callbacks w) (_ctrl_click_handlers w) (_hover_handlers w).
Definition set_msg_callbacks (hs : list MsgHandler) (w : Map) : Map :=
  mkMap (_trait_values w) hs (_ctrl_click_handlers w) (_hover_handlers w).
Definition set_ctrl_click_handlers (d : CallbackDispatcher) (w : Map) : Map :=
  mkMap (_trait_values w) (_msg_callbacks w) d (_hover_handlers w).
Definition set_hover_handlers (d : CallbackDispatcher) (w : Map) : Map :=
  mkMap (_trait_values w) (_msg_callbacks w) (_ctrl_click_handlers w) d.

(** One invocation [callee(source, payload)] of a host callback. *)
Record Call : Type := mkCall {
  callee : Callback;
  source : Map;
  payload : pyval
}.

(** What a method can read and change: the widget it is bound to and the
    invocations of host callbacks made so far, oldest first. *)
Record World : Type := mkWorld {
  self : Map;
  trace : list Call
}.

(** Methods run in a state-and-exception monad over [World]. *)
Definition Py (A : Type) : Type := World -> result (A * World).

#[global] Instance Py_ret : MRet Py := fun A a σ => Ok (a, σ).
#[global] Instance Py_bind : MBind Py := fun A B f m σ =>
  match m σ with
  | Ok (a, σ') => f a σ'
  | Raise e => Raise e
  end.

Definition get_self : Py Map := fun σ => Ok (self σ, σ).
Definition put_self (w : Map) : Py unit := fun σ => Ok (tt, mkWorld w (trace σ)).
Definition emit (cs : list Call) : Py unit :=
  fun σ => Ok (tt, mkWorld (self σ) (trace σ ++ cs)).
Definition raise {A : Type} (e : exn) : Py A := fun _ => Raise e.
Definition lift {A : Type} (r : result A) : Py A :=
  fun σ => match r with Ok a => Ok (a, σ) | Raise e => Raise e end.
Definition when (b : bool) (m : Py unit) : Py unit :=
  if b then m else mret tt.

Fixpoint for_each {A : Type} (l : list A) (body : A -> Py unit) : Py unit :=
  match l with
  | [] => mret tt
  | x :: l' => body x ;; for_each l' body
  end.

(** Modelled from the spec: [CallbackDispatcher.__call__] belongs to the
    widget framework.  It invokes every registered callback with
    [(source, payload)], in registration order, before it returns. *)
Definition call_dispatcher (d : CallbackDispatcher) (src : Map)
    (content : pyval) : Py unit :=
  emit (map (fun cb => mkCall cb src content) (callbacks d)).

(** *** The attribute store *)

(** [widget.name]: the current value of an attribute. *)
Definition get (name : string) : Py pyval :=
  w ← get_self;
  match _trait_values w !! name with
  | Some v => mret v
  | None => raise AttributeError
  end.

(** Modelled from the spec: assignment [widget.name = value] is the
    framework's.  On a declared trait the value is stored when the trait
    accepts it and [InvalidFieldKind] is raised otherwise, with no further
    validation; the error is not handled here.  A name that is not a trait is
    an ordinary attribute and is just bound. *)
Definition set (name : string) (value : pyval) : Py unit :=
  w ← get_self;
  match trait_of name with
  | Some t =>
      if accepts t value
      then put_self (set_trait_values (<[name := value]> (_trait_values w)) w)
      else raise InvalidFieldKind
  | None => put_self (set_trait_values (<[name := value]> (_trait_values w)) w)
  end.

(** Modelled from the spec: the base-class constructor
    [DOMWidget.__init__], called with the keyword
    arguments, is the framework's.  The attribute store
    is created with the default of every declared trait and no message
    receiver; each keyword argument is then an assignment. *)
Definition DOMWidget___init__ (kwargs : list (string * pyval)) : Py unit :=
  put_self (mkMap (list_to_map (prod_map id default_of <$> Map_traits)) []
                  (mkDispatcher []) (mkDispatcher [])) ;;
  for_each kwargs (fun kv => set kv.1 kv.2).

(** Modelled from the spec: [on_msg] is the framework's; it wires a receiver
    to the widget's inbound message channel. *)
Definition on_msg (h : MsgHandler) : Py unit :=
  w ← get_self;
  put_self (set_msg_callbacks (_msg_callbacks w ++ [h]) w).

(** *** The methods of [Map] *)

Definition __init__ (kwargs : list (string * pyval)) : Py unit :=
  DOMWidget___init__ kwargs ;;
  w ← get_self;
  put_self (set_ctrl_click_handlers (mkDispatcher []) w) ;;
  w ← get_self;
  put_self (set_hover_handlers (mkDispatcher []) w) ;;
  on_msg Bound_handle_button_msg.

Definition on_ctrl_click (callback : Callback) (remove : bool) : Py unit :=
  w ← get_self;
  put_self (set_ctrl_click_handlers
              (register_callback (_ctrl_click_handlers w) callback remove) w).

Definition on_hover (callback : Callback) (remove : bool) : Py unit :=
  w ← get_self;
  put_self (set_hover_handlers
              (register_callback (_hover_handlers w) callback remove) w).

Definition _handle_button_msg (_ : Map) (content : pyval) : Py unit :=
  ev ← lift (py_get content "event" (VStr EmptyString));
  w ← get_self;
  when (py_eq_str ev "click") (call_dispatcher (_ctrl_click_handlers w) w content) ;;
  ev ← lift (py_get content "event" (VStr EmptyString));
  w ← get_self;
  when (py_eq_str ev "hover") (call_dispatcher (_hover_handlers w) w content).

(** Modelled from the spec: delivery of one inbound custom message, the
    framework's side of the channel.  Every receiver wired by [on_msg] is
    called with the widget and the message content. *)
Definition deliver (content : pyval) : Py unit :=
  w ← get_self;
  for_each (_msg_callbacks w)
    (fun h => match h with
              | Bound_handle_button_msg => w' ← get_self; _handle_button_msg w' content
              end).

(** Instantiation of the class with keyword arguments [kwargs]: a new object,
    initialised, with no callback invoked yet. *)
Definition blank : Map := mkMap ∅ [] (mkDispatcher []) (mkDispatcher []).
Definition new_Map (kwargs : list (string * pyval)) : result (unit * World) :=
  __init__ kwargs (mkWorld blank []).

(** ** Statements and sample inputs *)

(** The calls one dispatcher makes for one message. *)
Definition invocations (d : CallbackDispatcher) (w : Map) (content : pyval)
    : list Call :=
  map (fun cb => mkCall cb w content) (callbacks d).

Definition event_of (m : gmap string pyval) : pyval :=
  default (VStr EmptyString) (m !! "event").

(** The state a constructor call without keyword arguments leaves. *)
Definition default_trait_values : gmap string pyval :=
  list_to_map (prod_map id default_of <$> Map_traits).

Definition fresh : World :=
  mkWorld (mkMap default_trait_values [Bound_handle_button_msg]
                 (mkDispatcher []) (mkDispatcher [])) [].

(** The state a method leaves, for building concrete worlds. *)
Definition after (p : Py unit) (σ : World) : World :=
  match p σ with
  | Ok (_, σ') => σ'
  | Raise _ => σ
  end.

(** A new widget with callback 0 on ctrl-click and callback 1 on hover. *)
Definition two_listeners : World :=
  after (on_ctrl_click (Fn 0) false ;; on_hover (Fn 1) false) fresh.

Definition msg_click_FRA : gmap string pyval :=
  list_to_map [("event", VStr "click"); ("id", VStr "FRA")].
Definition msg_hover_ESP : gmap string pyval :=
  list_to_map [("event", VStr "hover"); ("id", VStr "ESP")].
Definition msg_zoom : gmap string pyval :=
  list_to_map [("event", VStr "zoom")].
Definition msg_no_event : gmap string pyval :=
  list_to_map [("id", VStr "FRA")].

(** The event name a call was made with, read back from its payload. *)
Definition payload_event (c : Call) : option pyval :=
  match payload c with
  | VDict d => d !! "event"
  | _ => None
  end.

Definition traced (r : result (unit * World)) : list Call :=
  match r with
  | Ok (_, σ) => trace σ
  | Raise _ => []
  end.

(** The routing property with the payload as the spec words it: the
    callbacks of the ctrl-click dispatcher are handed the message with the
    event key stripped. *)
Definition click_forwards_stripped (σ : World) (m : gmap string pyval) : Prop :=
  m !! "event" = Some (VStr "click") →
  ∀ u, _handle_button_msg u (VDict m) σ =
       Ok (tt, mkWorld (self σ)
                 (trace σ ++ invocations (_ctrl_click_handlers (self σ))
                                         (self σ) (VDict (delete "event" m)))).

(** The scenario with the payload as the spec words it: the callback is
    handed [{"id":"ESP"}]. *)
Definition hover_scenario_stripped (A : Callback) : Prop :=
  ∃ σ1 σ2 σ3,
    new_Map [] = Ok (tt, σ1) ∧
    on_hover A false σ1 = Ok (tt, σ2) ∧
    deliver (VDict msg_hover_ESP) σ2 = Ok (tt, σ3) ∧
    trace σ3 = [mkCall A (self σ2) (VDict (delete "event" msg_hover_ESP))].

(** The defaults as the spec's field table lists them. *)
Definition declared_defaults : list (string * pyval) :=
  [ ("fig_margin", dict_of [("top", VInt 0); ("bottom", VInt 20);
                            ("left", VInt 0); ("right", VInt 0)]);
    ("min_width", VFloat 800.0);
    ("min_height", VFloat 600.0);
    ("enable_hover", VBool true);
    ("hovered_styles", dict_of [("hovered_fill", VStr "Orange");
                                ("hovered_stroke", VNone);
                                ("hovered_stroke_width", VFloat 5.0)]);
    ("stroke_color", VNone);
    ("default_color", VNone);
    ("color", dict_of []);
    ("color_scale", VNone);
    ("enable_select", VBool true);
    ("selected", VList []);
    ("selected_styles", dict_of [("selected_fill", VStr "Red");
                                 ("selected_stroke", VNone);
                                 ("selected_stroke_width", VFloat 5.0)]);
    ("axis", VNone);
    ("tooltip_color", VStr "White");
    ("display_tooltip", VBool true);
    ("text_data", dict_of []);
    ("text_color", VStr "Black");
    ("tooltip_format", VStr ".2f");
    ("tooltip_widget", VNone);
    ("map_data", VTuple [VStr "worldmap";
                         VStr "nbextensions/bqplot/WorldMapData"]) ].

(** The callback list after one [register_callback]. *)
Definition reg_step (l : list Callback) (op : Callback * bool) : list Callback :=
  callbacks (register_callback (mkDispatcher l) op.1 op.2).

(** The reference the spec compares with: an ordered sequence on which
    registering appends and removing deletes the element at the position of
    the first match, if there is one. *)
Definition seq_step (l : list Callback) (op : Callback * bool) : list Callback :=
  if op.2
  then match list_find (fun x => x = op.1) l with
       | Some (i, _) => delete i l
       | None => l
       end
  else l ++ [op.1].

Definition simulate (ops : list (Callback * bool)) (l : list Callback)
    : list Callback :=
  foldl seq_step l ops.

(** Idempotent removal on the dispatcher as the spec words it: a second
    removal in a row finds the dispatcher as the first one left it and leaves
    it so. *)
Definition second_removal_is_noop (σ : World) (c : Callback) : Prop :=
  ∃ σ1, on_ctrl_click c true σ = Ok (tt, σ1)
        ∧ on_ctrl_click c true σ1 = Ok (tt, σ1).

(** A new widget on which callback 0 was registered twice on ctrl-click. *)
Definition registered_twice : World :=
  after (on_ctrl_click (Fn 0) false ;; on_ctrl_click (Fn 0) false) fresh.

(** The fields the spec lists as accepting null. *)
Definition nullable_fields : list string :=
  [ "hovered_styles"; "stroke_color"; "default_color"; "color_scale";
    "selected_styles"; "axis"; "tooltip_widget" ].

(** ** Operations on a widget *)

(** What host code and the message channel do to a widget with the methods
    of this module: register or remove a callback for one of the two events,
    or hand an inbound message to the handler (which is called with the
    widget itself as first argument). *)
Inductive Op : Type :=
  | OnCtrlClick (callback : Callback) (remove : bool)
  | OnHover (callback : Callback) (remove : bool)
  | Message (content : pyval).

Definition perform (op : Op) : Py unit :=
  match op with
  | OnCtrlClick callback remove => on_ctrl_click callback remove
  | OnHover callback remove => on_hover callback remove
  | Message content => w ← get_self; _handle_button_msg w content
  end.

Definition is_mapping (v : pyval) : bool :=
  match v with VDict _ => true | _ => false end.


(** The callbacks listening to the event a message names: those of one
    dispatcher at most. *)
Definition listeners_of (w : Map) (m : gmap string pyval) : list Callback :=
  if py_eq_str (event_of m) "click" then callbacks (_ctrl_click_handlers w)
  else if py_eq_str (event_of m) "hover" then callbacks (_hover_handlers w)
  else [].

(** A call whose payload carries one of the two routed event names. *)
Definition routed (c : Call) : Prop :=
  payload_event c = Some (VStr "click") ∨ payload_event c = Some (VStr "hover").

Definition msg_hover_DEU : gmap string pyval :=
  list_to_map [("event", VStr "hover"); ("id", VStr "DEU")].

(** The registrations a sequence of operations makes for each event, in
    order. *)
Definition ctrl_click_ops (ops : list Op) : list (Callback * bool) :=
  omap (fun op => match op with
                  | OnCtrlClick c r => Some (c, r)
                  | _ => None
                  end) ops.

Definition hover_ops (ops : list Op) : list (Callback * bool) :=
  omap (fun op => match op with
                  | OnHover c r => Some (c, r)
                  | _ => None
                  end) ops.

(** ** The dispatcher of the framework *)

(** [CallbackDispatcher.register_callback] as the imported framework
    (IPython.html.widgets, not part of this repository) defines it and as the
    program behaves:
    [if remove and callback in self.callbacks: self.callbacks.remove(callback)]
    [elif not remove and callback not in self.callbacks:
     self.callbacks.append(callback)].
    It departs from the spec's words in one place: a callback that is already
    held is not appended again. *)
Definition framework_register_callback (d : CallbackDispatcher)
    (callback : Callback) (remove : bool) : CallbackDispatcher :=
  if remove && bool_decide (callback ∈ callbacks d)
  then mkDispatcher (remove_first callback (callbacks d))
  else if negb remove && negb (bool_decide (callback ∈ callbacks d))
  then mkDispatcher (callbacks d ++ [callback])
  else d.

(** Lines 132-136 with the dispatcher's method left open: the two
    registration methods only delegate, whatever [register_callback] the
    framework supplies.  [on_ctrl_click] and [on_hover] above are these at
    the spec's wording of the method. *)
Definition on_ctrl_click_with
    (reg : CallbackDispatcher → Callback → bool → CallbackDispatcher)
    (callback : Callback) (remove : bool) : Py unit :=
  w ← get_self;
  put_self (set_ctrl_click_handlers
              (reg (_ctrl_click_handlers w) callback remove) w).

Definition on_hover_with
    (reg : CallbackDispatcher → Callback → bool → CallbackDispatcher)
    (callback : Callback) (remove : bool) : Py unit :=
  w ← get_self;
  put_self (set_hover_handlers
              (reg (_hover_handlers w) callback remove) w).

(** The reference of the amended claim: an ordered sequence without
    duplicates, on which registering appends unless the element is already
    there and removing deletes the element at the position of the first
    match, if there is one. *)
Definition seq_step_unique (l : list Callback) (op : Callback * bool)
    : list Callback :=
  if op.2
  then match list_find (fun x => x = op.1) l with
       | Some (i, _) => delete i l
       | None => l
       end
  else if bool_decide (op.1 ∈ l) then l else l ++ [op.1].

Definition simulate_unique (ops : list (Callback * bool)) (l : list Callback)
    : list Callback :=
  foldl seq_step_unique l ops.

(** The first clause of C5 as stated, on the program's dispatcher: a run of
    register/remove calls leaves the list that the ordered sequence of the
    spec (append always, remove first match) holds after the same run. *)
Definition registers_like_sequence (ops : list (Callback * bool)) (σ : World)
    : Prop :=
  ∃ σ',
    for_each ops (fun op => on_ctrl_click_with framework_register_callback
                              op.1 op.2) σ = Ok (tt, σ')
    ∧ callbacks (_ctrl_click_handlers (self σ'))
      = simulate ops (callbacks (_ctrl_click_handlers (self σ))).

(** * Properties *)

(** ** The monad, step by step *)

Ltac py_unfold :=
  unfold deliver, _handle_button_msg, on_ctrl_click, on_hover, on_msg,
    call_dispatcher, get, set, when, lift, raise, emit, put_self, get_self,
    mbind, Py_bind, mret, Py_ret.

Lemma world_eta (σ : World) : mkWorld (self σ) (trace σ) = σ.
Proof. by destruct σ. Qed.

(** What the handler does on any mapping: the trace grows by the calls of the
    dispatchers whose event name the message carries, and nothing else
    changes. *)
Lemma handle_button_msg_dict (u : Map) (m : gmap string pyval) (σ : World) :
  _handle_button_msg u (VDict m) σ =
  Ok (tt, mkWorld (self σ)
            (trace σ
             ++ (if py_eq_str (event_of m) "click"
                 then invocations (_ctrl_click_handlers (self σ)) (self σ) (VDict m)
                 else [])
             ++ (if py_eq_str (event_of m) "hover"
                 then invocations (_hover_handlers (self σ)) (self σ) (VDict m)
                 else []))).
Proof.
  destruct σ as [w tr]. py_unfold. unfold py_get, event_of, invocations. simpl.
  destruct (py_eq_str _ "click"), (py_eq_str _ "hover"); simpl;
    rewrite ?app_nil_r, <- ?app_assoc; reflexivity.
Qed.

(** A value that is not a mapping has no [get]. *)
Lemma handle_button_msg_not_dict (u : Map) (content : pyval) (σ : World) :
  (∀ m, content ≠ VDict m) →
  _handle_button_msg u content σ = Raise AttributeError.
Proof.
  intros Hnd. py_unfold. destruct content; try reflexivity.
  by destruct (Hnd d).
Qed.

Lemma py_eq_str_true (v : pyval) (s : string) :
  py_eq_str v s = true ↔ v = VStr s.
Proof.
  destruct v; simpl; try (split; [discriminate | intros [=]]).
  rewrite bool_decide_eq_true. split; [by intros -> | by intros [=]].
Qed.

Lemma py_eq_str_false (v : pyval) (s : string) :
  py_eq_str v s = false ↔ v ≠ VStr s.
Proof.
  rewrite <- py_eq_str_true. by destruct (py_eq_str v s).
Qed.

Lemma new_Map_nil : new_Map [] = Ok (tt, fresh).
Proof. reflexivity. Qed.

(** ** Routing of click messages *)

(** C1, as stated, fails: on the message [{"event":"click","id":"FRA"}] the
    registered ctrl-click callback is handed the whole content, event key
    included, not [{"id":"FRA"}]. *)
Lemma click_forwards_stripped_fails :
  ¬ click_forwards_stripped two_listeners msg_click_FRA.
Proof.
  intros Hclaim. specialize (Hclaim eq_refl (self two_listeners)).
  rewrite handle_button_msg_dict in Hclaim.
  apply (f_equal (fun r => payload_event <$> traced r)) in Hclaim.
  vm_compute in Hclaim. discriminate.
Qed.

(** C1 (amended): a message whose event field is ["click"] makes the handler
    invoke every callback of the ctrl-click dispatcher, in order, and no
    callback of the hover dispatcher; each call receives the widget and the
    whole message content, unchanged and with its event key.  No error is
    raised and the widget is left as it was. *)
Theorem click_invokes_ctrl_click_only
    (u : Map) (σ : World) (m : gmap string pyval) :
  m !! "event" = Some (VStr "click") →
  _handle_button_msg u (VDict m) σ =
  Ok (tt, mkWorld (self σ)
            (trace σ ++ map (fun cb => mkCall cb (self σ) (VDict m))
                            (callbacks (_ctrl_click_handlers (self σ))))).
Proof.
  intros Hev. rewrite handle_button_msg_dict. unfold event_of. rewrite Hev.
  simpl. by rewrite app_nil_r.
Qed.

Lemma click_invokes_ctrl_click_only_witness :
  _handle_button_msg (self two_listeners) (VDict msg_click_FRA) two_listeners =
  Ok (tt, mkWorld (self two_listeners)
            [mkCall (Fn 0) (self two_listeners) (VDict msg_click_FRA)]).
Proof.
  apply (click_invokes_ctrl_click_only (self two_listeners) two_listeners
           msg_click_FRA).
  reflexivity.
Defined.

(** ** Routing of hover messages *)

(** C2, as stated, fails: in the scenario the callback is invoked with
    [(widget, {"event":"hover","id":"ESP"})], not [(widget, {"id":"ESP"})]. *)
Lemma hover_scenario_stripped_fails : ¬ hover_scenario_stripped (Fn 0).
Proof.
  intros (σ1 & σ2 & σ3 & Hnew & Hreg & Hmsg & Htr).
  rewrite new_Map_nil in Hnew. injection Hnew as <-.
  injection Hreg as <-.
  apply (f_equal traced) in Hmsg. simpl in Hmsg. rewrite <- Hmsg in Htr.
  apply (f_equal (fmap payload_event)) in Htr.
  vm_compute in Htr. discriminate.
Qed.

(** C2 (amended): a message whose event field is ["hover"] makes the handler
    invoke the callbacks of the hover dispatcher only, never those of the
    ctrl-click dispatcher.  In particular, after constructing a widget and
    registering a single callback [A] with [on_hover], delivering such a
    message (for instance [{"event":"hover","id":"ESP"}]) invokes [A] exactly
    once, with the widget and the whole message content, event key
    included. *)
Theorem hover_invokes_hover_only
    (u : Map) (σ : World) (m : gmap string pyval) (A : Callback) :
  m !! "event" = Some (VStr "hover") →
  _handle_button_msg u (VDict m) σ =
    Ok (tt, mkWorld (self σ)
              (trace σ ++ map (fun cb => mkCall cb (self σ) (VDict m))
                              (callbacks (_hover_handlers (self σ)))))
  ∧ ∃ σ1 σ2,
      new_Map [] = Ok (tt, σ1) ∧
      on_hover A false σ1 = Ok (tt, σ2) ∧
      callbacks (_ctrl_click_handlers (self σ2)) = [] ∧
      deliver (VDict m) σ2 =
        Ok (tt, mkWorld (self σ2) [mkCall A (self σ2) (VDict m)]).
Proof.
  intros Hev. split.
  - rewrite handle_button_msg_dict. unfold event_of. rewrite Hev. reflexivity.
  - exists fresh. eexists. split; [apply new_Map_nil |].
    split; [reflexivity |]. split; [reflexivity |].
    unfold deliver, for_each, mbind, Py_bind, get_self, mret, Py_ret.
    cbn [self _msg_callbacks set_hover_handlers fresh].
    rewrite handle_button_msg_dict. unfold event_of. rewrite Hev.
    reflexivity.
Qed.

Lemma hover_invokes_hover_only_witness :
  ∃ σ1 σ2,
    new_Map [] = Ok (tt, σ1) ∧
    on_hover (Fn 0) false σ1 = Ok (tt, σ2) ∧
    callbacks (_ctrl_click_handlers (self σ2)) = [] ∧
    deliver (VDict msg_hover_ESP) σ2 =
      Ok (tt, mkWorld (self σ2) [mkCall (Fn 0) (self σ2) (VDict msg_hover_ESP)]).
Proof.
  apply (hover_invokes_hover_only (self fresh) fresh msg_hover_ESP (Fn 0)).
  reflexivity.
Defined.

(** ** Messages that are not routed *)

(** C4: a message whose event field is neither ["click"] nor ["hover"] (for
    instance [{"event":"zoom"}]) makes the handler invoke no callback of
    either dispatcher; it returns normally and the widget is unchanged. *)
Theorem unknown_event_ignored
    (u : Map) (σ : World) (m : gmap string pyval) (ev : pyval) :
  m !! "event" = Some ev →
  ev ≠ VStr "click" →
  ev ≠ VStr "hover" →
  _handle_button_msg u (VDict m) σ = Ok (tt, σ).
Proof.
  intros Hev Hc Hh. rewrite handle_button_msg_dict. unfold event_of.
  rewrite Hev. simpl.
  apply py_eq_str_false in Hc, Hh. rewrite Hc, Hh. simpl.
  by rewrite app_nil_r, world_eta.
Qed.

Lemma unknown_event_ignored_witness :
  _handle_button_msg (self two_listeners) (VDict msg_zoom) two_listeners =
  Ok (tt, two_listeners).
Proof.
  apply (unknown_event_ignored (self two_listeners) two_listeners msg_zoom
           (VStr "zoom")).
  - reflexivity.
  - discriminate.
  - discriminate.
Defined.

(** C9: a message without an ['event'] key makes the handler invoke neither
    dispatcher and raise nothing: the event is read with the empty string as
    default, which is neither ["click"] nor ["hover"]. *)
Theorem missing_event_ignored
    (u : Map) (σ : World) (m : gmap string pyval) :
  m !! "event" = None →
  py_get (VDict m) "event" (VStr EmptyString) = Ok (VStr EmptyString)
  ∧ py_eq_str (VStr EmptyString) "click" = false
  ∧ py_eq_str (VStr EmptyString) "hover" = false
  ∧ _handle_button_msg u (VDict m) σ = Ok (tt, σ).
Proof.
  intros Hev. unfold py_get. rewrite Hev. repeat split.
  rewrite handle_button_msg_dict. unfold event_of. rewrite Hev. simpl.
  by rewrite app_nil_r, world_eta.
Qed.

Lemma missing_event_ignored_witness :
  _handle_button_msg (self two_listeners) (VDict msg_no_event) two_listeners =
  Ok (tt, two_listeners).
Proof.
  apply (missing_event_ignored (self two_listeners) two_listeners msg_no_event).
  reflexivity.
Defined.

(** ** Defaults and flags of the declarations *)

(** C3: a widget constructed without keyword arguments, before any
    assignment, returns the declared default for each of the twenty
    configuration fields: the table above, read field by field with [get]. *)
Theorem fresh_widget_has_declared_defaults :
  ∃ σ, new_Map [] = Ok (tt, σ)
       ∧ declared_defaults.*1 = config_fields
       ∧ Forall (fun nv => get nv.1 σ = Ok (nv.2, σ)) declared_defaults.
Proof.
  exists fresh. split; [apply new_Map_nil |]. split; [reflexivity |].
  unfold declared_defaults. repeat constructor.
Qed.

(** C8: each of the twenty configuration fields, [fig_margin] through
    [map_data], is declared with the synchronized flag.  The flag is part of
    the class-level declaration, which no operation on a widget can reach, so
    it is the same in every state. *)
Theorem all_fields_synchronized :
  length config_fields = 20
  ∧ head config_fields = Some "fig_margin"
  ∧ last config_fields = Some "map_data"
  ∧ Forall (fun name => ∃ t, trait_of name = Some t ∧ sync t = true)
           config_fields
  ∧ Forall (fun nt => sync nt.2 = true) Map_traits.
Proof.
  split; [reflexivity |]. split; [reflexivity |]. split; [reflexivity |].
  split.
  - unfold config_fields. repeat constructor; by eexists.
  - unfold Map_traits. repeat constructor.
Qed.

(** ** Registration *)

Lemma remove_first_find_delete (c : Callback) (l : list Callback) :
  remove_first c l =
  match list_find (fun x => x = c) l with
  | Some (i, _) => delete i l
  | None => l
  end.
Proof.
  induction l as [| x l IH]; [reflexivity |]. simpl.
  destruct (decide (x = c)); [reflexivity |].
  rewrite IH. by destruct (list_find _ l) as [[i y] |].
Qed.

Lemma reg_step_seq_step (l : list Callback) (op : Callback * bool) :
  reg_step l op = seq_step l op.
Proof.
  destruct op as [c [|]]; unfold reg_step, seq_step, register_callback; simpl;
    [apply remove_first_find_delete | reflexivity].
Qed.

Lemma foldl_reg_step_simulate (ops : list (Callback * bool)) (l : list Callback) :
  foldl reg_step l ops = simulate ops l.
Proof.
  unfold simulate. revert l.
  induction ops as [| op ops IH]; intros l; [reflexivity |].
  simpl. by rewrite reg_step_seq_step, IH.
Qed.

Lemma remove_first_absent (c : Callback) (l : list Callback) :
  c ∉ l → remove_first c l = l.
Proof.
  induction l as [| x l IH]; [reflexivity |]. intros Hnin.
  apply not_elem_of_cons in Hnin as [Hne Hnin]. simpl.
  destruct (decide (x = c)); [congruence |]. by rewrite IH.
Qed.

Lemma remove_first_once (c : Callback) (l : list Callback) :
  count_occ Callback_eq_dec l c ≤ 1 → c ∉ remove_first c l.
Proof.
  induction l as [| x l IH]; simpl; [intros _; apply not_elem_of_nil |].
  destruct (Callback_eq_dec x c) as [-> | Hne].
  - rewrite decide_True by done. intros Hle.
    assert (Hz : count_occ Callback_eq_dec l c = 0) by lia.
    apply count_occ_not_In in Hz. by rewrite list_elem_of_In.
  - rewrite decide_False by done. intros Hle Hin.
    apply elem_of_cons in Hin as [-> | Hin]; [done |]. by apply IH.
Qed.

Lemma map_eta_ctrl (w : Map) :
  set_ctrl_click_handlers
    (mkDispatcher (callbacks (_ctrl_click_handlers w))) w = w.
Proof. by destruct w as [? ? [?] ?]. Qed.

Lemma map_eta_hover (w : Map) :
  set_hover_handlers (mkDispatcher (callbacks (_hover_handlers w))) w = w.
Proof. by destruct w as [? ? ? [?]]. Qed.

(** A run of [on_ctrl_click] calls folds [register_callback] over the
    ctrl-click list and touches nothing else. *)
Lemma for_each_on_ctrl_click (ops : list (Callback * bool)) (σ : World) :
  for_each ops (fun op => on_ctrl_click op.1 op.2) σ =
  Ok (tt, mkWorld
            (set_ctrl_click_handlers
               (mkDispatcher
                  (foldl reg_step (callbacks (_ctrl_click_handlers (self σ))) ops))
               (self σ))
            (trace σ)).
Proof.
  revert σ. induction ops as [| op ops IH]; intros [w tr]; simpl.
  - by rewrite map_eta_ctrl.
  - py_unfold. unfold mbind, Py_bind in IH. simpl. rewrite IH. simpl.
    by destruct w.
Qed.

Lemma for_each_on_hover (ops : list (Callback * bool)) (σ : World) :
  for_each ops (fun op => on_hover op.1 op.2) σ =
  Ok (tt, mkWorld
            (set_hover_handlers
               (mkDispatcher
                  (foldl reg_step (callbacks (_hover_handlers (self σ))) ops))
               (self σ))
            (trace σ)).
Proof.
  revert σ. induction ops as [| op ops IH]; intros [w tr]; simpl.
  - by rewrite map_eta_hover.
  - py_unfold. unfold mbind, Py_bind in IH. simpl. rewrite IH. simpl.
    by destruct w.
Qed.


(** The spec's wording of the dispatcher is not consistent with its
    idempotent-remove property: were duplicates kept, the second removal in a
    row would delete the second occurrence of a callback registered twice. *)
Lemma second_removal_is_noop_fails :
  ¬ second_removal_is_noop registered_twice (Fn 0).
Proof.
  intros (σ1 & H1 & H2). injection H1 as <-.
  apply (f_equal (fun r => match r with
                           | Ok (_, σ) => callbacks (_ctrl_click_handlers (self σ))
                           | Raise _ => []
                           end)) in H2.
  vm_compute in H2. discriminate.
Qed.

(** The dispatcher as the spec words it refines the ordered sequence: a run
    of register/remove calls through [on_ctrl_click] or [on_hover] never
    raises and leaves the list the same run produces on an ordered sequence;
    removal of an absent callback is a silent no-op, and so is a second
    removal in a row of a handle that was held at most once. *)
Theorem register_sequence_simulates
    (ops : list (Callback * bool)) (σ : World) (c : Callback) :
  let cc := simulate ops (callbacks (_ctrl_click_handlers (self σ))) in
  let hh := simulate ops (callbacks (_hover_handlers (self σ))) in
  let σc := mkWorld (set_ctrl_click_handlers (mkDispatcher cc) (self σ)) (trace σ) in
  let σh := mkWorld (set_hover_handlers (mkDispatcher hh) (self σ)) (trace σ) in
  for_each ops (fun op => on_ctrl_click op.1 op.2) σ = Ok (tt, σc)
  ∧ for_each ops (fun op => on_hover op.1 op.2) σ = Ok (tt, σh)
  ∧ (c ∉ cc → on_ctrl_click c true σc = Ok (tt, σc))
  ∧ (c ∉ hh → on_hover c true σh = Ok (tt, σh))
  ∧ (count_occ Callback_eq_dec cc c ≤ 1 →
     ∃ σ1, on_ctrl_click c true σc = Ok (tt, σ1)
           ∧ on_ctrl_click c true σ1 = Ok (tt, σ1))
  ∧ (count_occ Callback_eq_dec hh c ≤ 1 →
     ∃ σ1, on_hover c true σh = Ok (tt, σ1)
           ∧ on_hover c true σ1 = Ok (tt, σ1)).
Proof.
  intros cc hh σc σh. destruct σ as [[tv ms [cl] [hl]] tr].
  split; [| split; [| split; [| split; [| split]]]].
  - rewrite for_each_on_ctrl_click. by rewrite foldl_reg_step_simulate.
  - rewrite for_each_on_hover. by rewrite foldl_reg_step_simulate.
  - intros Hnin. py_unfold. unfold register_callback. simpl.
    by rewrite remove_first_absent.
  - intros Hnin. py_unfold. unfold register_callback. simpl.
    by rewrite remove_first_absent.
  - intros Hle. eexists. split; [reflexivity |].
    py_unfold. unfold register_callback. simpl.
    rewrite (remove_first_absent c (remove_first c _)); [reflexivity |].
    by apply remove_first_once.
  - intros Hle. eexists. split; [reflexivity |].
    py_unfold. unfold register_callback. simpl.
    rewrite (remove_first_absent c (remove_first c _)); [reflexivity |].
    by apply remove_first_once.
Qed.

Lemma register_sequence_simulates_witness :
  ∃ σ1, on_ctrl_click (Fn 0) true two_listeners = Ok (tt, σ1)
        ∧ on_ctrl_click (Fn 0) true σ1 = Ok (tt, σ1).
Proof.
  apply (register_sequence_simulates [(Fn 0, false); (Fn 1, false); (Fn 1, true)]
           (after (on_hover (Fn 1) false) fresh) (Fn 0)).
  vm_compute. lia.
Defined.

(** ** Dispatch order *)



(** ** Frame of the registration methods *)

(** C10: [on_ctrl_click] and [on_hover], with [remove] true or false, return
    normally and change only the callback list of their own dispatcher: the
    trait values (hence every configuration field read with [get]) and the
    other dispatcher stay as they were, and no callback is invoked. *)
Theorem registration_frame (callback : Callback) (remove : bool) (σ : World) :
  (∃ σ', on_ctrl_click callback remove σ = Ok (tt, σ')
         ∧ _trait_values (self σ') = _trait_values (self σ)
         ∧ _hover_handlers (self σ') = _hover_handlers (self σ)
         ∧ _msg_callbacks (self σ') = _msg_callbacks (self σ)
         ∧ trace σ' = trace σ
         ∧ ∀ name v, get name σ = Ok (v, σ) ↔ get name σ' = Ok (v, σ'))
  ∧ (∃ σ', on_hover callback remove σ = Ok (tt, σ')
           ∧ _trait_values (self σ') = _trait_values (self σ)
           ∧ _ctrl_click_handlers (self σ') = _ctrl_click_handlers (self σ)
           ∧ _msg_callbacks (self σ') = _msg_callbacks (self σ)
           ∧ trace σ' = trace σ
           ∧ ∀ name v, get name σ = Ok (v, σ) ↔ get name σ' = Ok (v, σ')).
Proof.
  destruct σ as [w tr].
  split; (eexists; split; [reflexivity |]; repeat (split; [reflexivity |]));
    intros name v; py_unfold; simpl;
    destruct (_trait_values w !! name); split; intros [=]; by subst.
Qed.

(** ** Assignment to a configuration field *)

Lemma config_fields_declared :
  Forall (fun name =>
            ∃ t, trait_of name = Some t
                 ∧ nullable t = bool_decide (name ∈ nullable_fields))
         config_fields.
Proof. unfold config_fields. repeat constructor; by eexists. Qed.

Lemma set_declared (name : string) (t : TraitType) (v : pyval) (σ : World) :
  trait_of name = Some t →
  set name v σ =
  if accepts t v
  then Ok (tt, mkWorld (set_trait_values (<[name := v]> (_trait_values (self σ)))
                                          (self σ))
                 (trace σ))
  else Raise InvalidFieldKind.
Proof.
  intros Ht. py_unfold. rewrite Ht. by destruct (accepts t v).
Qed.

Lemma is_none_true (v : pyval) : is_none v = true ↔ v = VNone.
Proof. destruct v; simpl; split; try done. Qed.

Lemma accepts_false (t : TraitType) (v : pyval) :
  accepts t v = false ↔
  has_kind (kind t) v = false ∧ ¬ (v = VNone ∧ nullable t = true).
Proof.
  unfold accepts. rewrite orb_false_iff, andb_false_iff, <- is_none_true.
  destruct (is_none v), (nullable t); intuition congruence.
Qed.

(** C7: for each configuration field, the assignment raises
    [InvalidFieldKind] exactly when the value's runtime type disagrees with
    the declared kind of the field and the value is not a null given to one
    of the nullable fields (hovered_styles, stroke_color, default_color,
    color_scale, selected_styles, axis, tooltip_widget).  The error comes back
    to the caller; in every other case the value is stored as given, with no
    further check, and is what [get] then returns. *)
Theorem set_checks_kind_only (name : string) (v : pyval) (σ : World) :
  name ∈ config_fields →
  ∃ t, trait_of name = Some t
       ∧ (nullable t = true ↔ name ∈ nullable_fields)
       ∧ (set name v σ = Raise InvalidFieldKind ↔
          has_kind (kind t) v = false ∧ ¬ (v = VNone ∧ name ∈ nullable_fields))
       ∧ (set name v σ ≠ Raise InvalidFieldKind →
          ∃ σ', set name v σ = Ok (tt, σ')
                ∧ get name σ' = Ok (v, σ')
                ∧ (∀ other, other ≠ name →
                     _trait_values (self σ') !! other
                     = _trait_values (self σ) !! other)
                ∧ trace σ' = trace σ).
Proof.
  intros Hin.
  destruct (proj1 (Forall_forall _ _) config_fields_declared name Hin)
    as (t & Ht & Hnull).
  assert (Hn : nullable t = true ↔ name ∈ nullable_fields).
  { rewrite Hnull. apply bool_decide_eq_true. }
  exists t. split; [done |]. split; [done |].
  rewrite (set_declared name t v σ Ht). rewrite <- Hn.
  destruct (accepts t v) eqn:Hacc.
  - split.
    + split; [discriminate |]. intros Hbad.
      apply accepts_false in Hbad. congruence.
    + intros _. eexists. split; [reflexivity |]. destruct σ as [w tr].
      py_unfold. simpl. rewrite lookup_insert_eq.
      split; [reflexivity |]. split; [| reflexivity].
      intros other Hne. by rewrite lookup_insert_ne.
  - split; [| congruence].
    split; [intros _; by apply accepts_false | done].
Qed.

Lemma set_checks_kind_only_witness :
  ∃ t, trait_of "axis" = Some t
       ∧ (nullable t = true ↔ "axis" ∈ nullable_fields)
       ∧ (set "axis" (VStr "x") fresh = Raise InvalidFieldKind ↔
          has_kind (kind t) (VStr "x") = false
          ∧ ¬ (VStr "x" = VNone ∧ "axis" ∈ nullable_fields))
       ∧ (set "axis" (VStr "x") fresh ≠ Raise InvalidFieldKind →
          ∃ σ', set "axis" (VStr "x") fresh = Ok (tt, σ')
                ∧ get "axis" σ' = Ok (VStr "x", σ')
                ∧ (∀ other, other ≠ "axis" →
                     _trait_values (self σ') !! other
                     = _trait_values (self fresh) !! other)
                ∧ trace σ' = trace fresh).
Proof.
  apply (set_checks_kind_only "axis" (VStr "x") fresh).
  apply (bool_decide_eq_true_1 _). vm_compute. reflexivity.
Defined.

(** Assignments on a new widget: a string is refused by the float field
    [min_width], a negative width is stored (no range check), null is stored
    in the nullable reference [axis] and refused by [min_width]. *)
Example set_min_width_string :
  set "min_width" (VStr "wide") fresh = Raise InvalidFieldKind.
Proof. reflexivity. Qed.

Example set_min_width_negative :
  (set "min_width" (VFloat (-1.0)) ;; get "min_width") fresh
  = Ok (VFloat (-1.0),
        after (set "min_width" (VFloat (-1.0))) fresh).
Proof. reflexivity. Qed.

Example set_axis_none :
  (set "axis" VNone ;; get "axis") fresh
  = Ok (VNone, after (set "axis" VNone) fresh).
Proof. reflexivity. Qed.

Example set_min_width_none :
  set "min_width" VNone fresh = Raise InvalidFieldKind.
Proof. reflexivity. Qed.

(** ** Sequences of operations *)

Lemma for_each_cons {A : Type} (x : A) (l : list A) (body : A → Py unit)
    (σ : World) :
  for_each (x :: l) body σ =
  match body x σ with
  | Ok (_, σ') => for_each l body σ'
  | Raise e => Raise e
  end.
Proof. reflexivity. Qed.

Lemma event_of_str (m : gmap string pyval) (s : string) :
  s ≠ EmptyString →
  py_eq_str (event_of m) s = true → m !! "event" = Some (VStr s).
Proof.
  intros Hs Heq. apply py_eq_str_true in Heq. unfold event_of in Heq.
  destruct (m !! "event") as [v |]; simpl in Heq; [by subst |].
  injection Heq as <-. done.
Qed.

Lemma not_click_and_hover (v : pyval) :
  py_eq_str v "click" = true → py_eq_str v "hover" = false.
Proof.
  intros Hc. apply py_eq_str_true in Hc. subst. reflexivity.
Qed.

(** The calls of one message, with the listeners chosen by if/elif. *)
Lemma handle_button_msg_listeners (u : Map) (m : gmap string pyval) (σ : World) :
  _handle_button_msg u (VDict m) σ =
  Ok (tt, mkWorld (self σ)
            (trace σ ++ map (fun c => mkCall c (self σ) (VDict m))
                            (listeners_of (self σ) m))).
Proof.
  rewrite handle_button_msg_dict. unfold listeners_of, invocations.
  destruct (py_eq_str (event_of m) "click") eqn:Hc.
  - rewrite (not_click_and_hover _ Hc). by rewrite app_nil_r.
  - by destruct (py_eq_str (event_of m) "hover").
Qed.

Lemma listeners_routed (w : Map) (m : gmap string pyval) :
  Forall routed (map (fun c => mkCall c w (VDict m)) (listeners_of w m)).
Proof.
  apply Forall_forall. intros call Hin.
  apply list_elem_of_In, in_map_iff in Hin as (c & <- & Hc0).
  unfold routed, payload_event, listeners_of in *. simpl.
  destruct (py_eq_str (event_of m) "click") eqn:Hc.
  - left. by apply event_of_str.
  - destruct (py_eq_str (event_of m) "hover") eqn:Hh.
    + right. by apply event_of_str.
    + destruct Hc0.
Qed.

(** One operation either returns, with the trait values and the message
    receivers as they were and the trace extended by routed calls, or is a
    message that is not a mapping and raises [AttributeError]. *)
Lemma perform_cases (op : Op) (σ : World) :
  (∃ w' calls,
     perform op σ = Ok (tt, mkWorld w' (trace σ ++ calls))
     ∧ _trait_values w' = _trait_values (self σ)
     ∧ _msg_callbacks w' = _msg_callbacks (self σ)
     ∧ Forall routed calls
     ∧ ∀ content, op = Message content → is_mapping content = true)
  ∨ (perform op σ = Raise AttributeError
     ∧ ∃ content, op = Message content ∧ is_mapping content = false).
Proof.
  destruct op as [c r | c r | content].
  - left. eexists _, []. rewrite app_nil_r.
    split; [reflexivity |]. repeat split; [constructor | discriminate].
  - left. eexists _, []. rewrite app_nil_r.
    split; [reflexivity |]. repeat split; [constructor | discriminate].
  - destruct content;
      try (right; split; [reflexivity | by eexists]).
    left. do 2 eexists.
    split; [apply (handle_button_msg_listeners (self σ) d σ) |].
    repeat split; [apply listeners_routed | by intros ? [= <-]].
Qed.

Lemma set_frame (name : string) (v : pyval) (σ σ' : World) :
  set name v σ = Ok (tt, σ') →
  _msg_callbacks (self σ') = _msg_callbacks (self σ)
  ∧ _ctrl_click_handlers (self σ') = _ctrl_click_handlers (self σ)
  ∧ _hover_handlers (self σ') = _hover_handlers (self σ)
  ∧ trace σ' = trace σ.
Proof.
  py_unfold. destruct (trait_of name) as [t |]; [destruct (accepts t v) |];
    intros [= <-]; done.
Qed.

Lemma for_each_set_frame (kwargs : list (string * pyval)) (σ σ' : World) :
  for_each kwargs (fun kv => set kv.1 kv.2) σ = Ok (tt, σ') →
  _msg_callbacks (self σ') = _msg_callbacks (self σ)
  ∧ trace σ' = trace σ.
Proof.
  revert σ. induction kwargs as [| [name v] kwargs IH]; intros σ.
  - by intros [= <-].
  - rewrite for_each_cons. simpl.
    destruct (set name v σ) as [[[] σ1] | e] eqn:Hset; [| discriminate].
    intros Hrest. apply IH in Hrest as [-> ->].
    by apply set_frame in Hset as (-> & _ & _ & ->).
Qed.

(** Registrations for the two events commute: registering or removing a
    ctrl-click callback and then a hover callback leaves the same widget as
    doing it in the other order. *)
Lemma registrations_commute
    (a b : Callback) (ra rb : bool) (σ : World) :
  (on_ctrl_click a ra ;; on_hover b rb) σ
  = (on_hover b rb ;; on_ctrl_click a ra) σ.
Proof. by destruct σ as [[tv ms cl hl] tr]. Qed.



(** X3: handing a sequence of mapping messages to the handler never raises
    and never changes the widget; the trace grows, message by message and in
    the order of arrival, by one call per callback of the single dispatcher
    the message's event names (ctrl-click for ["click"], hover for
    ["hover"], none otherwise), each call made with the widget and that
    message.  No message reaches both dispatchers. *)
Theorem messages_compose
    (u : Map) (msgs : list (gmap string pyval)) (σ : World) :
  for_each msgs (fun m => _handle_button_msg u (VDict m)) σ =
  Ok (tt, mkWorld (self σ)
            (trace σ
             ++ concat (map (fun m => map (fun c => mkCall c (self σ) (VDict m))
                                          (listeners_of (self σ) m))
                            msgs))).
Proof.
  revert σ. induction msgs as [| m msgs IH]; intros σ.
  - simpl. by rewrite app_nil_r, world_eta.
  - rewrite for_each_cons, handle_button_msg_listeners, IH. simpl.
    by rewrite <- app_assoc.
Qed.

Lemma deliver_bound (m : gmap string pyval) (σ : World) :
  _msg_callbacks (self σ) = [Bound_handle_button_msg] →
  deliver (VDict m) σ = _handle_button_msg (self σ) (VDict m) σ.
Proof.
  intros Hms. rewrite handle_button_msg_listeners.
  unfold deliver, mbind, Py_bind, get_self. rewrite Hms.
  rewrite for_each_cons. unfold mbind, Py_bind.
  by rewrite handle_button_msg_listeners.
Qed.

Lemma listeners_of_none (w : Map) (m : gmap string pyval) :
  callbacks (_ctrl_click_handlers w) = [] →
  callbacks (_hover_handlers w) = [] →
  listeners_of w m = [].
Proof.
  intros Hc Hh. unfold listeners_of. rewrite Hc, Hh.
  by destruct (py_eq_str (event_of m) "click"),
              (py_eq_str (event_of m) "hover").
Qed.

Lemma new_Map_shape (kwargs : list (string * pyval)) (σ : World) :
  new_Map kwargs = Ok (tt, σ) →
  ∃ tv, σ = mkWorld (mkMap tv [Bound_handle_button_msg]
                           (mkDispatcher []) (mkDispatcher [])) [].
Proof.
  unfold new_Map, __init__, DOMWidget___init__.
  unfold mbind at 1 2 3 4 5 6. unfold Py_bind.
  unfold put_self at 1. cbn [trace].
  destruct (for_each kwargs _ _) as [[[] σ1] | e] eqn:Hkw; [| discriminate].
  apply for_each_set_frame in Hkw as [Hms Htr]. simpl in Hms, Htr.
  py_unfold. cbn. rewrite Hms, Htr. intros [= <-]. by eexists.
Qed.

(** X4: whatever keyword arguments the constructor is given, when it returns
    the widget starts silent: both dispatchers are empty, the button handler
    is the only message receiver, no callback has been invoked, and
    delivering any mapping message invokes nothing and changes nothing. *)
Theorem constructed_widget_is_silent
    (kwargs : list (string * pyval)) (σ : World) (m : gmap string pyval) :
  new_Map kwargs = Ok (tt, σ) →
  callbacks (_ctrl_click_handlers (self σ)) = []
  ∧ callbacks (_hover_handlers (self σ)) = []
  ∧ _msg_callbacks (self σ) = [Bound_handle_button_msg]
  ∧ trace σ = []
  ∧ deliver (VDict m) σ = Ok (tt, σ).
Proof.
  intros Hnew. apply new_Map_shape in Hnew as [tv ->].
  repeat split.
  rewrite deliver_bound by done. rewrite handle_button_msg_listeners.
  by rewrite listeners_of_none.
Qed.

Lemma constructed_widget_is_silent_witness :
  ∃ σ, new_Map [("min_width", VFloat 500.0); ("selected", VList [VStr "FRA"])]
       = Ok (tt, σ)
       ∧ callbacks (_ctrl_click_handlers (self σ)) = []
       ∧ callbacks (_hover_handlers (self σ)) = []
       ∧ _msg_callbacks (self σ) = [Bound_handle_button_msg]
       ∧ trace σ = []
       ∧ deliver (VDict msg_click_FRA) σ = Ok (tt, σ).
Proof.
  eexists. split; [reflexivity |].
  apply (constructed_widget_is_silent
           [("min_width", VFloat 500.0); ("selected", VList [VStr "FRA"])]).
  reflexivity.
Defined.

Lemma run_ok_invariant (ops : list Op) (σ σ' : World) :
  for_each ops perform σ = Ok (tt, σ') →
  _trait_values (self σ') = _trait_values (self σ)
  ∧ _msg_callbacks (self σ') = _msg_callbacks (self σ)
  ∧ ∃ calls, trace σ' = trace σ ++ calls ∧ Forall routed calls.
Proof.
  revert σ. induction ops as [| op ops IH]; intros σ.
  - intros [= <-]. repeat split. exists []. by rewrite app_nil_r.
  - rewrite for_each_cons.
    destruct (perform_cases op σ)
      as [(w1 & calls1 & -> & Htv & Hms & Hr1 & _) | [-> _]]; [| discriminate].
    intros Hrest. apply IH in Hrest as (Htv' & Hms' & calls & Htr & Hr).
    simpl in *. split; [congruence |]. split; [congruence |].
    exists (calls1 ++ calls). rewrite Htr, <- app_assoc.
    split; [done | by apply Forall_app].
Qed.

(** X5: no method of the class writes a trait: after any sequence of
    [on_ctrl_click], [on_hover] and handled messages that returns, every
    attribute reads as before, the message receivers are the same, and the
    calls recorded earlier are still there, in place, followed by the new
    ones. *)
Theorem operations_keep_configuration (ops : list Op) (σ σ' : World) :
  for_each ops perform σ = Ok (tt, σ') →
  _trait_values (self σ') = _trait_values (self σ)
  ∧ _msg_callbacks (self σ') = _msg_callbacks (self σ)
  ∧ (∀ name v, get name σ = Ok (v, σ) ↔ get name σ' = Ok (v, σ'))
  ∧ ∃ calls, trace σ' = trace σ ++ calls.
Proof.
  intros Hrun. apply run_ok_invariant in Hrun as (Htv & Hms & calls & Htr & _).
  split; [done |]. split; [done |]. split; [| by exists calls].
  intros name v. py_unfold. rewrite Htv.
  destruct (_trait_values (self σ) !! name); split; intros [=]; by subst.
Qed.

Lemma operations_keep_configuration_witness :
  ∃ σ',
    for_each [OnHover (Fn 2) false; Message (VDict msg_hover_DEU);
              OnCtrlClick (Fn 0) true; Message (VDict msg_zoom)]
             perform two_listeners = Ok (tt, σ')
    ∧ _trait_values (self σ') = _trait_values (self two_listeners)
    ∧ _msg_callbacks (self σ') = _msg_callbacks (self two_listeners)
    ∧ (∀ name v, get name two_listeners = Ok (v, two_listeners)
                 ↔ get name σ' = Ok (v, σ'))
    ∧ ∃ calls, trace σ' = trace two_listeners ++ calls.
Proof.
  eexists. split; [reflexivity |].
  apply (operations_keep_configuration
           [OnHover (Fn 2) false; Message (VDict msg_hover_DEU);
            OnCtrlClick (Fn 0) true; Message (VDict msg_zoom)]).
  reflexivity.
Defined.

(** X6: the only way a sequence of registrations and handled messages can
    fail is a message that is not a mapping: the sequence returns exactly
    when every message in it is a mapping, and the exception is always
    [AttributeError]. *)
Theorem operations_fail_only_on_non_mapping (ops : list Op) (σ : World) :
  ((∃ σ', for_each ops perform σ = Ok (tt, σ'))
   ↔ ∀ content, Message content ∈ ops → is_mapping content = true)
  ∧ ∀ e, for_each ops perform σ = Raise e → e = AttributeError.
Proof.
  revert σ. induction ops as [| op ops IH]; intros σ.
  - split; [| discriminate]. split; [| by eexists].
    intros _ content Hin. by apply elem_of_nil in Hin.
  - rewrite for_each_cons.
    destruct (perform_cases op σ)
      as [(w1 & calls1 & -> & _ & _ & _ & Hmap) | [Hbad (content & Hop & Hnm)]].
    + destruct (IH (mkWorld w1 (trace σ ++ calls1))) as [[Hok Hall] Hexn].
      split; [| done]. split.
      * intros Hex content Hin. apply elem_of_cons in Hin as [Heq | Hin].
        -- by apply Hmap.
        -- by apply Hok.
      * intros Hall'. apply Hall. intros content Hin.
        apply Hall'. by right.
    + rewrite Hbad. subst op. split; [| by intros e [= <-]]. split.
      * by intros [σ' [=]].
      * intros Hall. specialize (Hall content).
        rewrite Hall in Hnm; [done | by left].
Qed.

(** X7: the two view selectors, declared after the methods, are synchronized
    traits too; a widget constructed without keyword arguments names the view
    ["Map"] of module ["nbextensions/bqplot/Map"], and keeps naming it after
    any sequence of registrations and handled messages. *)
Theorem view_selectors_fixed (ops : list Op) (σ' : World) :
  for_each ops perform fresh = Ok (tt, σ') →
  new_Map [] = Ok (tt, fresh)
  ∧ (∃ t, trait_of "_view_name" = Some t ∧ sync t = true)
  ∧ (∃ t, trait_of "_view_module" = Some t ∧ sync t = true)
  ∧ get "_view_name" σ' = Ok (VStr "Map", σ')
  ∧ get "_view_module" σ' = Ok (VStr "nbextensions/bqplot/Map", σ').
Proof.
  intros Hrun. apply run_ok_invariant in Hrun as (Htv & _).
  split; [apply new_Map_nil |].
  split; [by eexists |]. split; [by eexists |].
  py_unfold. rewrite Htv. by split.
Qed.

Lemma view_selectors_fixed_witness :
  ∃ σ',
    for_each [OnCtrlClick (Fn 0) false; Message (VDict msg_click_FRA)]
             perform fresh = Ok (tt, σ')
    ∧ get "_view_name" σ' = Ok (VStr "Map", σ')
    ∧ get "_view_module" σ' = Ok (VStr "nbextensions/bqplot/Map", σ').
Proof.
  eexists. split; [reflexivity |].
  apply (view_selectors_fixed
           [OnCtrlClick (Fn 0) false; Message (VDict msg_click_FRA)]).
  reflexivity.
Defined.

(** X8: registration for one event never changes who is called for the
    other: a hover message invokes the same callbacks, in the same order and
    with the same payload, before and after any [on_ctrl_click]; likewise a
    click message before and after any [on_hover]. *)
Theorem registration_isolated
    (c : Callback) (r : bool) (u : Map) (mc mh : gmap string pyval)
    (w : Map) :
  mc !! "event" = Some (VStr "click") →
  mh !! "event" = Some (VStr "hover") →
  (∃ w1 calls calls1,
     on_ctrl_click c r (mkWorld w []) = Ok (tt, mkWorld w1 [])
     ∧ _handle_button_msg u (VDict mh) (mkWorld w []) = Ok (tt, mkWorld w calls)
     ∧ _handle_button_msg u (VDict mh) (mkWorld w1 []) = Ok (tt, mkWorld w1 calls1)
     ∧ callee <$> calls1 = callee <$> calls
     ∧ payload <$> calls1 = payload <$> calls)
  ∧ (∃ w1 calls calls1,
       on_hover c r (mkWorld w []) = Ok (tt, mkWorld w1 [])
       ∧ _handle_button_msg u (VDict mc) (mkWorld w []) = Ok (tt, mkWorld w calls)
       ∧ _handle_button_msg u (VDict mc) (mkWorld w1 []) = Ok (tt, mkWorld w1 calls1)
       ∧ callee <$> calls1 = callee <$> calls
       ∧ payload <$> calls1 = payload <$> calls).
Proof.
  intros Hc Hh. split; do 3 eexists;
    (split; [reflexivity |]);
    rewrite !handle_button_msg_dict; unfold event_of; rewrite ?Hc, ?Hh;
    (split; [reflexivity |]); (split; [reflexivity |]);
    simpl; unfold invocations; simpl;
    rewrite ?app_nil_r, <- !list_fmap_compose; done.
Qed.

Lemma registration_isolated_witness :
  ∃ w1 calls calls1,
    on_ctrl_click (Fn 7) false (mkWorld (self two_listeners) [])
    = Ok (tt, mkWorld w1 [])
    ∧ _handle_button_msg (self fresh) (VDict msg_hover_DEU)
        (mkWorld (self two_listeners) [])
      = Ok (tt, mkWorld (self two_listeners) calls)
    ∧ _handle_button_msg (self fresh) (VDict msg_hover_DEU) (mkWorld w1 [])
      = Ok (tt, mkWorld w1 calls1)
    ∧ callee <$> calls1 = callee <$> calls
    ∧ payload <$> calls1 = payload <$> calls.
Proof.
  apply (registration_isolated (Fn 7) false (self fresh)
           msg_click_FRA msg_hover_DEU (self two_listeners)); reflexivity.
Defined.

(** X9: a callback is only ever invoked for a routed event: if every call
    recorded so far carries the event name ["click"] or ["hover"] in its
    payload (as when no call was made yet), so does every call recorded after
    any sequence of registrations and handled messages.  In particular no
    callback is ever handed a payload without its event key. *)
Theorem calls_carry_routed_event (ops : list Op) (σ σ' : World) :
  Forall routed (trace σ) →
  for_each ops perform σ = Ok (tt, σ') →
  Forall routed (trace σ').
Proof.
  intros Hold Hrun.
  apply run_ok_invariant in Hrun as (_ & _ & calls & -> & Hnew).
  by apply Forall_app.
Qed.

Lemma calls_carry_routed_event_witness :
  ∃ σ',
    for_each [Message (VDict msg_click_FRA); OnHover (Fn 2) false;
              Message (VDict msg_zoom); Message (VDict msg_hover_DEU)]
             perform two_listeners = Ok (tt, σ')
    ∧ length (trace σ') = 3
    ∧ Forall routed (trace σ').
Proof.
  eexists. split; [reflexivity |]. split; [reflexivity |].
  apply (calls_carry_routed_event
           [Message (VDict msg_click_FRA); OnHover (Fn 2) false;
            Message (VDict msg_zoom); Message (VDict msg_hover_DEU)]
           two_listeners).
  - constructor.
  - reflexivity.
Defined.

(** X1: each dispatcher depends on the registrations for its own event
    only: after any sequence of operations that returns, the ctrl-click
    callback list is what the [on_ctrl_click] calls of the sequence, taken
    alone and in order, make of the initial list, and the hover list is what
    the [on_hover] calls make of it; handled messages and the registrations
    for the other event have no influence. *)
Theorem dispatchers_follow_own_registrations (ops : list Op) (σ σ' : World) :
  for_each ops perform σ = Ok (tt, σ') →
  for_each (ctrl_click_ops ops) (fun op => on_ctrl_click op.1 op.2) σ
  = Ok (tt, mkWorld (set_ctrl_click_handlers (_ctrl_click_handlers (self σ'))
                                             (self σ))
              (trace σ))
  ∧ for_each (hover_ops ops) (fun op => on_hover op.1 op.2) σ
    = Ok (tt, mkWorld (set_hover_handlers (_hover_handlers (self σ')) (self σ))
                (trace σ)).
Proof.
  rewrite for_each_on_ctrl_click, for_each_on_hover.
  revert σ. induction ops as [| op ops IH]; intros [w tr].
  - intros [= <-]. simpl. by destruct w as [? ? [?] [?]].
  - rewrite for_each_cons. destruct op as [c r | c r | content].
    + intros Hrest. apply IH in Hrest as [[= Hc] [= Hh]].
      simpl in *. destruct (_ctrl_click_handlers (self σ')) as [cl'],
        (_hover_handlers (self σ')) as [hl']. simpl in *.
      split; f_equal; f_equal; f_equal; f_equal; done.
    + intros Hrest. apply IH in Hrest as [[= Hc] [= Hh]].
      simpl in *. destruct (_ctrl_click_handlers (self σ')) as [cl'],
        (_hover_handlers (self σ')) as [hl']. simpl in *.
      split; f_equal; f_equal; f_equal; f_equal; done.
    + destruct content; try discriminate.
      change (perform (Message (VDict d)) (mkWorld w tr))
        with (_handle_button_msg w (VDict d) (mkWorld w tr)).
      rewrite handle_button_msg_listeners.
      intros Hrest. apply IH in Hrest as [[= Hc] [= Hh]].
      simpl in *. destruct (_ctrl_click_handlers (self σ')) as [cl'],
        (_hover_handlers (self σ')) as [hl']. simpl in *.
      split; f_equal; f_equal; f_equal; f_equal; done.
Qed.

Lemma dispatchers_follow_own_registrations_witness :
  ∃ σ',
    for_each [OnHover (Fn 2) false; Message (VDict msg_hover_DEU);
              OnCtrlClick (Fn 3) false; OnHover (Fn 1) true;
              OnCtrlClick (Fn 0) true]
             perform two_listeners = Ok (tt, σ')
    ∧ callbacks (_ctrl_click_handlers (self σ')) = [Fn 3]
    ∧ callbacks (_hover_handlers (self σ')) = [Fn 2]
    ∧ for_each [(Fn 3, false); (Fn 0, true)]
               (fun op => on_ctrl_click op.1 op.2) two_listeners
      = Ok (tt, mkWorld (set_ctrl_click_handlers
                           (_ctrl_click_handlers (self σ'))
                           (self two_listeners))
                  (trace two_listeners))
    ∧ for_each [(Fn 2, false); (Fn 1, true)]
               (fun op => on_hover op.1 op.2) two_listeners
      = Ok (tt, mkWorld (set_hover_handlers (_hover_handlers (self σ'))
                                            (self two_listeners))
                  (trace two_listeners)).
Proof.
  eexists. split; [reflexivity |]. split; [reflexivity |].
  split; [reflexivity |].
  apply (dispatchers_follow_own_registrations
           [OnHover (Fn 2) false; Message (VDict msg_hover_DEU);
            OnCtrlClick (Fn 3) false; OnHover (Fn 1) true;
            OnCtrlClick (Fn 0) true]
           two_listeners).
  reflexivity.
Defined.

(** ** Registration on the framework's dispatcher *)

Lemma on_ctrl_click_with_spec_wording (callback : Callback) (remove : bool) :
  on_ctrl_click_with register_callback callback remove
  = on_ctrl_click callback remove.
Proof. reflexivity. Qed.

Lemma on_hover_with_spec_wording (callback : Callback) (remove : bool) :
  on_hover_with register_callback callback remove = on_hover callback remove.
Proof. reflexivity. Qed.

(** The list one call of the framework's method leaves. *)
Lemma framework_register_callback_list (l : list Callback) (c : Callback)
    (remove : bool) :
  callbacks (framework_register_callback (mkDispatcher l) c remove)
  = seq_step_unique l (c, remove).
Proof.
  unfold framework_register_callback, seq_step_unique. simpl.
  destruct remove; simpl.
  - rewrite <- remove_first_find_delete.
    destruct (bool_decide (c ∈ l)) eqn:Hin; simpl; [reflexivity |].
    apply bool_decide_eq_false in Hin. by rewrite remove_first_absent.
  - by destruct (bool_decide (c ∈ l)).
Qed.

Lemma remove_first_subset (c x : Callback) (l : list Callback) :
  x ∈ remove_first c l → x ∈ l.
Proof.
  induction l as [| y l IH]; simpl; [done |].
  destruct (decide (y = c)).
  - intros Hin. by right.
  - intros Hin. apply elem_of_cons in Hin as [-> | Hin]; [by left |].
    right. by apply IH.
Qed.

Lemma remove_first_NoDup (c : Callback) (l : list Callback) :
  NoDup l → NoDup (remove_first c l) ∧ c ∉ remove_first c l.
Proof.
  induction 1 as [| y l Hy Hnd IH]; simpl.
  - split; [constructor | apply not_elem_of_nil].
  - destruct (decide (y = c)) as [-> | Hne]; [done |].
    destruct IH as [IHnd IHc]. split.
    + constructor; [| done]. intros Hin. by apply remove_first_subset in Hin.
    + intros Hin. apply elem_of_cons in Hin as [-> | Hin]; done.
Qed.

Lemma seq_step_unique_NoDup (l : list Callback) (op : Callback * bool) :
  NoDup l → NoDup (seq_step_unique l op).
Proof.
  intros Hnd. destruct op as [c remove]. unfold seq_step_unique. simpl.
  destruct remove.
  - rewrite <- remove_first_find_delete. by apply remove_first_NoDup.
  - destruct (bool_decide (c ∈ l)) eqn:Hin; [done |].
    apply bool_decide_eq_false in Hin.
    apply NoDup_app. split; [done |]. split; [| apply NoDup_singleton].
    intros x Hx Hxc. apply list_elem_of_singleton in Hxc. by subst.
Qed.

Lemma simulate_unique_NoDup (ops : list (Callback * bool)) (l : list Callback) :
  NoDup l → NoDup (simulate_unique ops l).
Proof.
  unfold simulate_unique. revert l.
  induction ops as [| op ops IH]; intros l Hnd; [done |].
  simpl. by apply IH, seq_step_unique_NoDup.
Qed.

Lemma for_each_on_ctrl_click_framework
    (ops : list (Callback * bool)) (σ : World) :
  for_each ops (fun op => on_ctrl_click_with framework_register_callback
                            op.1 op.2) σ =
  Ok (tt, mkWorld
            (set_ctrl_click_handlers
               (mkDispatcher
                  (simulate_unique ops (callbacks (_ctrl_click_handlers (self σ)))))
               (self σ))
            (trace σ)).
Proof.
  unfold simulate_unique.
  revert σ. induction ops as [| [c r] ops IH]; intros [[tv ms [cl] hl] tr].
  - reflexivity.
  - rewrite for_each_cons.
    unfold on_ctrl_click_with at 1. unfold mbind, Py_bind, get_self, put_self.
    cbn [self trace _ctrl_click_handlers fst snd]. rewrite IH.
    cbn [self trace _ctrl_click_handlers set_ctrl_click_handlers
         _trait_values _msg_callbacks _hover_handlers foldl].
    by rewrite framework_register_callback_list.
Qed.

Lemma for_each_on_hover_framework
    (ops : list (Callback * bool)) (σ : World) :
  for_each ops (fun op => on_hover_with framework_register_callback
                            op.1 op.2) σ =
  Ok (tt, mkWorld
            (set_hover_handlers
               (mkDispatcher
                  (simulate_unique ops (callbacks (_hover_handlers (self σ)))))
               (self σ))
            (trace σ)).
Proof.
  unfold simulate_unique.
  revert σ. induction ops as [| [c r] ops IH]; intros [[tv ms cl [hl]] tr].
  - reflexivity.
  - rewrite for_each_cons.
    unfold on_hover_with at 1. unfold mbind, Py_bind, get_self, put_self.
    cbn [self trace _hover_handlers fst snd]. rewrite IH.
    cbn [self trace _hover_handlers set_hover_handlers
         _trait_values _msg_callbacks _ctrl_click_handlers foldl].
    by rewrite framework_register_callback_list.
Qed.

Lemma on_ctrl_click_with_run
    (reg : CallbackDispatcher → Callback → bool → CallbackDispatcher)
    (c : Callback) (r : bool) (σ : World) :
  on_ctrl_click_with reg c r σ =
  Ok (tt, mkWorld (set_ctrl_click_handlers
                     (reg (_ctrl_click_handlers (self σ)) c r) (self σ))
            (trace σ)).
Proof. reflexivity. Qed.

Lemma on_hover_with_run
    (reg : CallbackDispatcher → Callback → bool → CallbackDispatcher)
    (c : Callback) (r : bool) (σ : World) :
  on_hover_with reg c r σ =
  Ok (tt, mkWorld (set_hover_handlers
                     (reg (_hover_handlers (self σ)) c r) (self σ))
            (trace σ)).
Proof. reflexivity. Qed.

Lemma framework_remove_absent (d : CallbackDispatcher) (c : Callback) :
  c ∉ callbacks d → framework_register_callback d c true = d.
Proof.
  intros Hnin. unfold framework_register_callback. simpl.
  by rewrite bool_decide_eq_false_2.
Qed.

Lemma framework_remove_twice (d : CallbackDispatcher) (c : Callback) :
  NoDup (callbacks d) →
  framework_register_callback (framework_register_callback d c true) c true
  = framework_register_callback d c true.
Proof.
  intros Hnd. apply framework_remove_absent.
  unfold framework_register_callback. simpl.
  destruct (bool_decide (c ∈ callbacks d)) eqn:Hin; simpl.
  - by apply remove_first_NoDup.
  - by apply bool_decide_eq_false in Hin.
Qed.

Lemma framework_register_held (d : CallbackDispatcher) (c : Callback) :
  c ∈ callbacks d → framework_register_callback d c false = d.
Proof.
  intros Hin. unfold framework_register_callback. simpl.
  by rewrite bool_decide_eq_true_2.
Qed.

(** The spec's wording of the method and the framework's agree on every call
    but the registration of a callback that is already held. *)
Lemma framework_agrees_with_spec_wording
    (d : CallbackDispatcher) (c : Callback) (remove : bool) :
  (remove = false → c ∉ callbacks d) →
  callbacks (framework_register_callback d c remove)
  = callbacks (register_callback d c remove).
Proof.
  intros Hfresh. unfold framework_register_callback, register_callback.
  destruct remove; simpl.
  - destruct (bool_decide (c ∈ callbacks d)) eqn:Hin; simpl; [reflexivity |].
    apply bool_decide_eq_false in Hin. by rewrite remove_first_absent.
  - by rewrite bool_decide_eq_false_2 by by apply Hfresh.
Qed.

(** C5, as stated, fails: the dispatcher does make a uniqueness check.
    Registering the same callback twice on a new widget leaves it held once,
    where the ordered sequence that appends on every register holds it
    twice. *)
Lemma registers_like_sequence_fails :
  ¬ registers_like_sequence [(Fn 0, false); (Fn 0, false)] fresh.
Proof.
  intros (σ' & Hrun & Hl).
  rewrite for_each_on_ctrl_click_framework in Hrun. injection Hrun as <-.
  vm_compute in Hl. discriminate.
Qed.

(** C5 (amended): a sequence of register/remove calls on one dispatcher
    (through [on_ctrl_click] or through [on_hover]) never raises and leaves
    the callback list that the same sequence produces on an ordered sequence
    without duplicates: remove=false appends the callback unless it is
    already held, in which case nothing changes; remove=true removes the
    occurrence equal to the callback and is a silent no-op when the callback
    is absent.  No callback is ever held twice, so removing the same handle
    twice in a row leaves the dispatcher unchanged the second time, with no
    error. *)
Theorem framework_registration_holds_once
    (ops : list (Callback * bool)) (σ : World) (c : Callback) :
  NoDup (callbacks (_ctrl_click_handlers (self σ))) →
  NoDup (callbacks (_hover_handlers (self σ))) →
  let cc := simulate_unique ops (callbacks (_ctrl_click_handlers (self σ))) in
  let hh := simulate_unique ops (callbacks (_hover_handlers (self σ))) in
  let σc := mkWorld (set_ctrl_click_handlers (mkDispatcher cc) (self σ)) (trace σ) in
  let σh := mkWorld (set_hover_handlers (mkDispatcher hh) (self σ)) (trace σ) in
  for_each ops (fun op => on_ctrl_click_with framework_register_callback
                            op.1 op.2) σ = Ok (tt, σc)
  ∧ for_each ops (fun op => on_hover_with framework_register_callback
                              op.1 op.2) σ = Ok (tt, σh)
  ∧ NoDup cc ∧ NoDup hh
  ∧ (c ∈ cc →
     on_ctrl_click_with framework_register_callback c false σc = Ok (tt, σc))
  ∧ (c ∈ hh →
     on_hover_with framework_register_callback c false σh = Ok (tt, σh))
  ∧ (c ∉ cc →
     on_ctrl_click_with framework_register_callback c true σc = Ok (tt, σc))
  ∧ (c ∉ hh →
     on_hover_with framework_register_callback c true σh = Ok (tt, σh))
  ∧ (∃ σ1, on_ctrl_click_with framework_register_callback c true σc = Ok (tt, σ1)
           ∧ on_ctrl_click_with framework_register_callback c true σ1
             = Ok (tt, σ1))
  ∧ (∃ σ1, on_hover_with framework_register_callback c true σh = Ok (tt, σ1)
           ∧ on_hover_with framework_register_callback c true σ1
             = Ok (tt, σ1)).
Proof.
  intros Hc Hh cc hh σc σh.
  assert (Hcc : NoDup cc) by by apply simulate_unique_NoDup.
  assert (Hhh : NoDup hh) by by apply simulate_unique_NoDup.
  split; [apply for_each_on_ctrl_click_framework |].
  split; [apply for_each_on_hover_framework |].
  split; [done |]. split; [done |].
  destruct σ as [[tv ms cl hl] tr]. subst σc σh.
  rewrite !on_ctrl_click_with_run, !on_hover_with_run.
  cbn [self trace set_ctrl_click_handlers set_hover_handlers
       _ctrl_click_handlers _hover_handlers _trait_values _msg_callbacks].
  split; [intros Hin; by rewrite framework_register_held |].
  split; [intros Hin; by rewrite framework_register_held |].
  split; [intros Hin; by rewrite framework_remove_absent |].
  split; [intros Hin; by rewrite framework_remove_absent |].
  split; (eexists; split; [reflexivity |]);
    rewrite ?on_ctrl_click_with_run, ?on_hover_with_run;
    cbn [self trace set_ctrl_click_handlers set_hover_handlers
         _ctrl_click_handlers _hover_handlers _trait_values _msg_callbacks];
    by rewrite framework_remove_twice.
Qed.

Lemma framework_registration_holds_once_witness :
  let ops := [(Fn 0, false); (Fn 1, false); (Fn 0, false); (Fn 1, true)] in
  let σc := mkWorld (set_ctrl_click_handlers (mkDispatcher [Fn 0]) (self fresh))
                    (trace fresh) in
  for_each ops (fun op => on_ctrl_click_with framework_register_callback
                            op.1 op.2) fresh = Ok (tt, σc)
  ∧ ∃ σ1, on_ctrl_click_with framework_register_callback (Fn 0) true σc
          = Ok (tt, σ1)
          ∧ on_ctrl_click_with framework_register_callback (Fn 0) true σ1
            = Ok (tt, σ1).
Proof.
  intros ops σc.
  destruct (framework_registration_holds_once ops fresh (Fn 0))
    as (Hrun & _ & _ & _ & _ & _ & _ & _ & Htwice & _).
  - constructor.
  - constructor.
  - split; [exact Hrun | exact Htwice].
Defined.
